(** * hassio/misc/gdbus.py: the gdbus proxy

    A shallow embedding of [hassio.misc.gdbus] and the properties of its
    proxy life cycle: [DBus.connect], [DBus._init_proxy], [DBus._call_dbus],
    [DBus._send] and the dynamic dispatch of [DBus.__getattr__].

    Conventions of the embedding.
    - A Python [str] is a Rocq [string] holding its UTF-8 encoding; every
      character the code inspects (blanks, quotes, backslash, braces) is
      ASCII, so the operations below agree with Python's on code points.
    - [bytes] are [list byte].
    - The module's objects live in a heap indexed by references; the external
      [gdbus] processes are an oracle that answers each command line.
    - An [async def] returns a coroutine object; its body runs only under
      [await].
    - Calls to [_LOGGER] leave no trace in the model: they neither raise nor
      touch a proxy. *)

From Stdlib Require Import String Ascii List ZArith Bool.
From Stdlib Require Import Strings.Byte DecimalString.
Import ListNotations.
Open Scope string_scope.
Set Warnings "-register-all".

(* ------------------------------------------------------------------ *)
(** ** Text helpers: [str.join] and [str()] *)

Module Text.

(** [sep.join(parts)] *)
Fixpoint join (sep : string) (parts : list string) : string :=
  match parts with
  | [] => EmptyString
  | [p] => p
  | p :: rest => p ++ sep ++ join sep rest
  end.

(** The positional arguments a caller may hand to a proxy method. *)
Inductive pyval :=
| PyStr (s : string)
| PyInt (z : Z)
| PyBool (b : bool)
| PyNone.

(** [str(v)] *)
Definition str (v : pyval) : string :=
  match v with
  | PyStr s => s
  | PyInt z => NilZero.string_of_int (Z.to_int z)
  | PyBool true => "True"
  | PyBool false => "False"
  | PyNone => "None"
  end.

End Text.

(* ------------------------------------------------------------------ *)
(** ** [bytes.decode()]: strict UTF-8 *)

Module Utf8.

Definition between (lo hi : N) (b : byte) : bool :=
  ((lo <=? Byte.to_N b) && (Byte.to_N b <=? hi))%N.

Definition cont : byte -> bool := between 128 191.

(** Well-formed UTF-8 byte sequences (no overlong forms, no surrogates,
    nothing above U+10FFFF), which is what the strict error handler of
    [bytes.decode] accepts. *)
Fixpoint valid (bs : list byte) : bool :=
  match bs with
  | [] => true
  | b0 :: r0 =>
    if between 0 127 b0 then valid r0
    else match r0 with
    | [] => false
    | b1 :: r1 =>
      if between 194 223 b0 then cont b1 && valid r1
      else match r1 with
      | [] => false
      | b2 :: r2 =>
        if between 224 224 b0 then between 160 191 b1 && cont b2 && valid r2
        else if between 237 237 b0 then between 128 159 b1 && cont b2 && valid r2
        else if between 225 239 b0 then cont b1 && cont b2 && valid r2
        else match r2 with
        | [] => false
        | b3 :: r3 =>
          if between 240 240 b0
          then between 144 191 b1 && cont b2 && cont b3 && valid r3
          else if between 241 243 b0
          then cont b1 && cont b2 && cont b3 && valid r3
          else if between 244 244 b0
          then between 128 143 b1 && cont b2 && cont b3 && valid r3
          else false
        end
      end
    end
  end.

(** [data.decode()]: [None] stands for [UnicodeDecodeError]. *)
Definition decode (data : list byte) : option string :=
  if valid data then Some (string_of_list_byte data) else None.

End Utf8.

(* ------------------------------------------------------------------ *)
(** ** [str.format] with keyword arguments

    The part of [str.format] the two command templates use: literal text and
    replacement fields [{name}].  Substituted values are not scanned again. *)

Module Format.

Inductive piece :=
| Lit (c : ascii)
| Field (name : string).

(** [field] is [Some n] while the scanner is between the braces of a
    replacement field whose name so far is [n]. *)
Fixpoint parse (template : string) (field : option string) : option (list piece) :=
  match template, field with
  | EmptyString, None => Some []
  | EmptyString, Some _ => None
  | String c rest, None =>
    if (c =? "{")%char then parse rest (Some EmptyString)
    else if (c =? "}")%char then None
    else option_map (cons (Lit c)) (parse rest None)
  | String c rest, Some n =>
    if (c =? "}")%char then option_map (cons (Field n)) (parse rest None)
    else if (c =? "{")%char then None
    else parse rest (Some (n ++ String c EmptyString))
  end.

Fixpoint lookup (kwargs : list (string * string)) (name : string) : option string :=
  match kwargs with
  | [] => None
  | (k, v) :: rest => if (k =? name)%string then Some v else lookup rest name
  end.

Fixpoint render (ps : list piece) (kwargs : list (string * string)) : option string :=
  match ps with
  | [] => Some EmptyString
  | Lit c :: rest => option_map (String c) (render rest kwargs)
  | Field n :: rest =>
    match lookup kwargs n, render rest kwargs with
    | Some v, Some tail => Some (v ++ tail)
    | _, _ => None
    end
  end.

(** [template.format] applied to keyword arguments; [None] stands for the
    [KeyError] or
    [ValueError] of a template that cannot be filled. *)
Definition format (template : string) (kwargs : list (string * string)) : option string :=
  match parse template None with
  | Some ps => render ps kwargs
  | None => None
  end.

End Format.

(* ------------------------------------------------------------------ *)
(** ** [shlex.split]

    The tokenizer of [shlex.shlex(s, posix=True)] with [whitespace_split]
    set and no comment characters, which is what [shlex.split(s)] runs.
    The successive calls of [read_token] are fused into one pass over the
    input; [out] collects the tokens already returned. *)

Module Shlex.

Definition whitespace (c : ascii) : bool :=
  ((c =? " ") || (c =? "009") || (c =? "013") || (c =? "010"))%char.

(** The quotes are the apostrophe and the double quote (code 34). *)
Definition quotes (c : ascii) : bool := ((c =? "'") || (c =? "034"))%char.

Definition escape (c : ascii) : bool := (c =? "\")%char.

(** Only inside double quotes does a backslash escape. *)
Definition escapedquotes (c : ascii) : bool := (c =? "034")%char.

(** [self.state]: [' '], ['a'], a quote character or the escape character. *)
Inductive state :=
| Blank
| Word
| Quote (q : ascii)
| Escape (e : ascii).

Definition push (token : string) (c : ascii) : string :=
  token ++ String c EmptyString.

(** [None] stands for [ValueError] (no closing quotation, or no escaped
    character). *)
Fixpoint read (input : string) (st escapedstate : state) (token : string)
    (quoted : bool) (out : list string) : option (list string) :=
  match input with
  | EmptyString =>
    match st with
    | Blank => Some out
    | Word =>
      if negb quoted && (token =? EmptyString)%string then Some out
      else Some (out ++ [token])%list
    | Quote _ => None
    | Escape _ => None
    end
  | String nextchar rest =>
    match st with
    | Blank =>
      if whitespace nextchar then read rest Blank escapedstate token quoted out
      else if escape nextchar then read rest (Escape nextchar) Word token quoted out
      else if quotes nextchar then read rest (Quote nextchar) escapedstate token quoted out
      else read rest Word escapedstate (String nextchar EmptyString) quoted out
    | Quote q =>
      if (nextchar =? q)%char then read rest Word escapedstate token true out
      else if escape nextchar && escapedquotes q
      then read rest (Escape nextchar) (Quote q) token true out
      else read rest (Quote q) escapedstate (push token nextchar) true out
    | Escape e =>
      let token' :=
        match escapedstate with
        | Quote q =>
          if negb (nextchar =? e)%char && negb (nextchar =? q)%char
          then push token e else token
        | _ => token
        end in
      read rest escapedstate escapedstate (push token' nextchar) quoted out
    | Word =>
      if whitespace nextchar then
        if negb (token =? EmptyString)%string || quoted
        then read rest Blank Blank EmptyString false (out ++ [token])%list
        else read rest Blank escapedstate token quoted out
      else if quotes nextchar then read rest (Quote nextchar) escapedstate token quoted out
      else if escape nextchar then read rest (Escape nextchar) Word token quoted out
      else read rest Word escapedstate (push token nextchar) quoted out
    end
  end.

(** [shlex.split(s)] *)
Definition split (s : string) : option (list string) :=
  read s Blank Blank EmptyString false [].

(** Characters the tokenizer copies into a word as they are. *)
Definition plain (c : ascii) : bool :=
  negb (whitespace c) && negb (quotes c) && negb (escape c).

Fixpoint all_plain (w : string) : bool :=
  match w with
  | EmptyString => true
  | String c rest => plain c && all_plain rest
  end.

(** A non-empty word free of blanks, quotes and backslashes. *)
Definition bare (w : string) : bool :=
  negb (w =? EmptyString)%string && all_plain w.

End Shlex.

(* ------------------------------------------------------------------ *)
(** ** [xml.etree.ElementTree]: the element tree and [findall] *)

Module ET.

(** An element: its tag, its attributes and its children in document
    order.  Text and tail are not read by the module and are left out. *)
Inductive Element :=
| Elem (tag : string) (attrib : list (string * string)) (children : list Element).

Definition tag (e : Element) : string := match e with Elem t _ _ => t end.
Definition attrib (e : Element) : list (string * string) :=
  match e with Elem _ a _ => a end.

(** [elem.iter()]: the element, then its descendants, in document order. *)
Fixpoint iter (e : Element) : list Element :=
  match e with
  | Elem _ _ children => e :: flat_map iter children
  end.

(** [elem.findall(".//" + name)]: every descendant of [elem] with that tag,
    at any depth, in document order; [elem] itself is never selected. *)
Definition findall_descendants (name : string) (elem : Element) : list Element :=
  filter (fun e => (tag e =? name)%string) (tl (iter elem)).

(** [elem.get(key)]: [None] when the attribute is absent. *)
Fixpoint get_attrib (a : list (string * string)) (key : string) : option string :=
  match a with
  | [] => None
  | (k, v) :: rest => if (k =? key)%string then Some v else get_attrib rest key
  end.

Definition get (e : Element) (key : string) : option string :=
  get_attrib (attrib e) key.

End ET.

(* ------------------------------------------------------------------ *)
(** ** The module [hassio.misc.gdbus] *)

Module Gdbus.

Definition INTROSPECT : string :=
  "gdbus introspect --system --dest {bus} --object-path {obj} --xml".

Definition CALL : string :=
  "gdbus call --system --dest {bus} --object-path {obj} --method {obj}.{method} {args}".

(** The exceptions that leave the module.  [DBusFatalError],
    [DBusReturnError] and [DBusParseError] are the subclasses of
    [DBusError]; the others are Python's own.  [NoSuchObject] is not a
    Python exception: it marks a reference that points outside the heap,
    which no Python program can build. *)
Inductive exn :=
| DBusFatalError
| DBusReturnError
| DBusParseError
| AttributeError
| ValueError
| KeyError
| TypeError
| UnicodeDecodeError
| NoSuchObject.

(** [isinstance(e, DBusError)] *)
Definition is_DBusError (e : exn) : bool :=
  match e with
  | DBusFatalError | DBusReturnError | DBusParseError => true
  | _ => false
  end.

(** An instance of [DBus]; an entry of [methods] is [None] where a
    [<method>] element carried no [name] attribute. *)
Record DBus := mkDBus {
  bus_name : string;
  object_path : string;
  methods : list (option string)
}.

Definition ref := nat.

(** The state a call runs in: the live [DBus] objects and the command lines
    handed to [asyncio.create_subprocess_exec] so far, oldest first. *)
Record world := mkWorld {
  heap : list DBus;
  execs : list (list string)
}.

(** What became of a process: [create_subprocess_exec] or [communicate]
    raised [OSError], or the process ran to its end. *)
Inductive outcome :=
| OSError
| Exited (returncode : Z) (stdout : list byte).

(** The operating system: what a command line does, given the command
    lines run before it. *)
Definition OS := list (list string) -> list string -> outcome.

Inductive result (A : Type) :=
| Ok (a : A)
| Raise (e : exn).
Arguments Ok {A} a.
Arguments Raise {A} e.

Definition M (A : Type) := world -> result A * world.

Definition ret {A} (a : A) : M A := fun w => (Ok a, w).

Definition raise {A} (e : exn) : M A := fun w => (Raise e, w).

Definition bind {A B} (m : M A) (k : A -> M B) : M B :=
  fun w =>
    match m w with
    | (Ok a, w') => k a w'
    | (Raise e, w') => (Raise e, w')
    end.

Notation "x <- m ;; k" := (bind m (fun x => k))
  (at level 61, m at next level, right associativity).
Notation "m ;;; k" := (bind m (fun _ => k))
  (at level 61, right associativity).

(** [try: body / except <caught>: handler] *)
Definition try_except {A} (body : M A) (caught : exn -> bool)
    (handler : exn -> M A) : M A :=
  fun w =>
    match body w with
    | (Ok a, w') => (Ok a, w')
    | (Raise e, w') => if caught e then handler e w' else (Raise e, w')
    end.

(** [for x in xs: body(x)] *)
Fixpoint for_each {A} (xs : list A) (body : A -> M unit) : M unit :=
  match xs with
  | [] => ret tt
  | x :: rest => body x ;;; for_each rest body
  end.

(** A value that may be missing because the call that computes it raised. *)
Definition or_raise {A} (o : option A) (e : exn) : M A :=
  match o with
  | Some a => ret a
  | None => raise e
  end.

(** The coroutine object an [async def] returns when called: its body,
    not yet started. *)
Inductive coroutine (A : Type) :=
| Coro (body : M A).
Arguments Coro {A} body.

(** [await c] runs the body to its end. *)
Definition await {A} (c : coroutine A) : M A :=
  match c with Coro body => body end.

(** *** The heap *)

Definition load (r : ref) : M DBus :=
  fun w => (match nth_error (heap w) r with
            | Some o => Ok o
            | None => Raise NoSuchObject
            end, w).

Fixpoint update {A} (l : list A) (i : nat) (f : A -> A) : list A :=
  match l, i with
  | [], _ => []
  | x :: rest, O => f x :: rest
  | x :: rest, S j => x :: update rest j f
  end.

(** [DBus(bus_name, object_path)]: a fresh object, set up by [__init__]. *)
Definition __init__ (bus object_path : string) : M ref :=
  fun w =>
    (Ok (length (heap w)),
     mkWorld (heap w ++ [mkDBus bus object_path []])%list (execs w)).

(** [self.methods.append(name)] *)
Definition methods_append (self : ref) (name : option string) : M unit :=
  fun w =>
    (Ok tt,
     mkWorld
       (update (heap w) self
          (fun o => mkDBus (bus_name o) (object_path o) (methods o ++ [name])%list))
       (execs w)).

(** [name in self.methods], for a string [name]. *)
Definition mem (name : string) (ms : list (option string)) : bool :=
  existsb (fun m => match m with
                    | Some n => (n =? name)%string
                    | None => false
                    end) ms.

(** *** The process behind a command *)

(** [create_subprocess_exec( *command, ...)] followed by
    [proc.communicate()].  The first token is the program: with no token at
    all the call itself raises [TypeError], and nothing is run. *)
Definition run_process (os : OS) (command : list string) : M outcome :=
  fun w =>
    match command with
    | [] => (Raise TypeError, w)
    | _ :: _ =>
      (Ok (os (execs w) command), mkWorld (heap w) (execs w ++ [command])%list)
    end.

Section Methods.

Variable os : OS.

(** [ET.fromstring]; [None] stands for [ET.ParseError]. *)
Variable fromstring : string -> option ET.Element.

Definition _send (self : ref) (command : list string) : coroutine string :=
  Coro (
    proc <- run_process os command ;;
    match proc with
    | OSError => raise DBusFatalError
    | Exited returncode data =>
      if negb (returncode =? 0)%Z then raise DBusReturnError
      else or_raise (Utf8.decode data) UnicodeDecodeError
    end).

Definition _init_proxy (self : ref) : coroutine unit :=
  Coro (
    o <- load self ;;
    line <- or_raise
      (Format.format INTROSPECT [("bus", bus_name o); ("obj", object_path o)])
      KeyError ;;
    command <- or_raise (Shlex.split line) ValueError ;;
    data <- try_except (await (_send self command)) is_DBusError raise ;;
    xml <- or_raise (fromstring data) DBusParseError ;;
    for_each (ET.findall_descendants "method" xml)
      (fun method => methods_append self (ET.get method "name"))).

Definition _gvariant (raw : string) : string := raw.

Definition _call_dbus (self : ref) (method : string) (args : list Text.pyval)
    : coroutine string :=
  Coro (
    o <- load self ;;
    line <- or_raise
      (Format.format CALL
         [("bus", bus_name o); ("obj", object_path o); ("method", method);
          ("args", Text.join " " (map Text.str args))])
      KeyError ;;
    command <- or_raise (Shlex.split line) ValueError ;;
    data <- try_except (await (_send self command)) is_DBusError raise ;;
    ret (_gvariant data)).

(** [__getattr__] answers with the wrapper [_method_wrapper], which a call
    turns into the coroutine of [_call_dbus]. *)
Definition __getattr__ (self : ref) (name : string)
    : M (list Text.pyval -> coroutine string) :=
  o <- load self ;;
  if negb (mem name (methods o)) then raise AttributeError
  else ret (fun args => _call_dbus self name args).

(** The coroutine of [_init_proxy] is built and dropped: nothing awaits it. *)
Definition connect (bus object_path : string) : coroutine ref :=
  Coro (
    self <- __init__ bus object_path ;;
    _ <- ret (_init_proxy self) ;;
    ret self).

(** [await getattr(proxy, name)( *args)] for a [name] that only
    [__getattr__] resolves: the proxy's dynamic operations. *)
Definition invoke (self : ref) (name : string) (args : list Text.pyval) : M string :=
  wrapper <- __getattr__ self name ;;
  await (wrapper args).

End Methods.

End Gdbus.

(* ------------------------------------------------------------------ *)
(** ** Concrete worlds used to run the module *)

Module Fixture.
Import Gdbus.

(** No object yet, no process run yet. *)
Definition fresh : world := mkWorld [] [].

(** An operating system on which no process can be started. *)
Definition os_down : OS := fun _ _ => OSError.

(** An operating system on which every process ends as [o]. *)
Definition os_always (o : outcome) : OS := fun _ _ => o.

(** The introspection document of an object with the methods [Foo], [Bar]
    and [Bar] again, and the tree it stands for. *)
Definition foo_bar_bar_xml : string :=
  "<node><interface name='org.example.I'><method name='Foo'/><method name='Bar'><arg type='s' direction='in'/></method><method name='Bar'/></interface></node>".

Definition foo_bar_bar : ET.Element :=
  ET.Elem "node" []
    [ET.Elem "interface" [("name", "org.example.I")]
       [ET.Elem "method" [("name", "Foo")] [];
        ET.Elem "method" [("name", "Bar")]
          [ET.Elem "arg" [("type", "s"); ("direction", "in")] []];
        ET.Elem "method" [("name", "Bar")] []]].

(** A cut-off document. *)
Definition truncated_xml : string := "<node><interface name='org.example.I'><meth".

(** A parser that knows the one document above and rejects the rest. *)
Definition fromstring_one (s : string) : option ET.Element :=
  if (s =? foo_bar_bar_xml)%string then Some foo_bar_bar else None.

(** [gdbus introspect] prints the document, [gdbus call] prints a tuple. *)
Definition os_example : OS :=
  fun _ command =>
    match command with
    | _ :: "introspect" :: _ => Exited 0 (list_byte_of_string foo_bar_bar_xml)
    | _ => Exited 0 (list_byte_of_string "('example',)")
    end.

(** A proxy whose introspection has run. *)
Definition ready : world :=
  mkWorld
    [mkDBus "org.example" "/org/example" [Some "Foo"; Some "Bar"; Some "Bar"]]
    [].

End Fixture.

(* ------------------------------------------------------------------ *)
(** ** What the command lines and the worlds should be *)

Import Gdbus.

(** The introspection command line, written out. *)
Definition introspect_line (o : DBus) : string :=
  "gdbus introspect --system --dest " ++ bus_name o ++
  " --object-path " ++ object_path o ++ " --xml".

(** The call command line, written out: the method identifier is
    [<object path>.<method>], and the last segment is the arguments' texts
    joined by single spaces. *)
Definition call_line (o : DBus) (method : string) (args : list Text.pyval) : string :=
  "gdbus call --system --dest " ++ bus_name o ++
  " --object-path " ++ object_path o ++
  " --method " ++ object_path o ++ "." ++ method ++
  " " ++ Text.join " " (map Text.str args).


(** The world once [command] has been handed to the operating system. *)
Definition logged (command : list string) (w : world) : world :=
  mkWorld (heap w) (execs w ++ [command]).

(** The object behind [self], with [names] appended to its methods. *)
Definition registered (self : ref) (names : list (option string)) (w : world)
    : world :=
  mkWorld
    (update (heap w) self
       (fun o => mkDBus (bus_name o) (object_path o) (methods o ++ names)))
    (execs w).

(** The names [_init_proxy] reads off a tree. *)
Definition declared (xml : ET.Element) : list (option string) :=
  map (fun method => ET.get method "name") (ET.findall_descendants "method" xml).

(** An operating system whose answer to a command does not depend on the
    commands run before. *)
Definition stateless (os : OS) : Prop :=
  forall h1 h2 command, os h1 command = os h2 command.

(** The tokens of the introspection command when the address needs no
    quoting. *)
Definition introspect_tokens (o : DBus) : list string :=
  ["gdbus"; "introspect"; "--system"; "--dest"; bus_name o;
   "--object-path"; object_path o; "--xml"].

Fixpoint no_apostrophe (w : string) : bool :=
  match w with
  | EmptyString => true
  | String c rest => negb (c =? "'")%char && no_apostrophe rest
  end.

(** [word_of text token]: the piece [text] of a command line is a word that
    needs no quoting, or a text between apostrophes; [token] is what it
    stands for. *)
Inductive word_of : string -> string -> Prop :=
| word_bare (w : string) :
    Shlex.bare w = true -> word_of w w
| word_quoted (w : string) :
    no_apostrophe w = true -> word_of ("'" ++ w ++ "'") w.

(** [name in self.methods] for the object behind [self]. *)
Definition callable (self : ref) (name : string) (w : world) : bool :=
  match nth_error (heap w) self with
  | Some o => mem name (methods o)
  | None => false
  end.


(* ------------------------------------------------------------------ *)
(** ** Properties *)

(** *** The command lines *)

Lemma append_nil_r (s : string) : s ++ EmptyString = s.
Proof. induction s as [|c s IH]; simpl; [reflexivity | now rewrite IH]. Qed.

Lemma append_assoc (a b c : string) : (a ++ b) ++ c = a ++ (b ++ c).
Proof. induction a as [|x a IH]; simpl; [reflexivity | now rewrite IH]. Qed.

Lemma format_INTROSPECT (o : DBus) :
  Format.format INTROSPECT [("bus", bus_name o); ("obj", object_path o)]
  = Some (introspect_line o).
Proof. reflexivity. Qed.

Lemma format_CALL (o : DBus) (method : string) (args : list Text.pyval) :
  Format.format CALL
    [("bus", bus_name o); ("obj", object_path o); ("method", method);
     ("args", Text.join " " (map Text.str args))]
  = Some (call_line o method args).
Proof.
  unfold Format.format, call_line. cbn.
  now rewrite append_nil_r.
Qed.

(** *** The transport *)

Lemma send_eq (os : OS) (self : ref) (program : string)
    (arguments : list string) (w : world) :
  await (_send os self (program :: arguments)) w =
  (match os (execs w) (program :: arguments) with
   | OSError => Raise DBusFatalError
   | Exited returncode data =>
     if (returncode =? 0)%Z then
       match Utf8.decode data with
       | Some text => Ok text
       | None => Raise UnicodeDecodeError
       end
     else Raise DBusReturnError
   end, logged (program :: arguments) w).
Proof.
  unfold await, _send, bind, run_process, logged. cbn.
  destruct (os (execs w) (program :: arguments)) as [|rc data]; [reflexivity|].
  destruct (rc =? 0)%Z; cbn; [|reflexivity].
  destruct (Utf8.decode data); reflexivity.
Qed.

Lemma send_nil (os : OS) (self : ref) (w : world) :
  await (_send os self []) w = (Raise TypeError, w).
Proof. reflexivity. Qed.

(** [except DBusError: ...; raise] passes every outcome on as it is. *)
Lemma try_reraise {A} (body : M A) (w : world) :
  try_except body is_DBusError raise w = body w.
Proof.
  unfold try_except, raise.
  destruct (body w) as [[a|e] w']; [reflexivity|].
  now destruct (is_DBusError e).
Qed.

(** *** Dispatch *)

Lemma getattr_unknown (os : OS) (self : ref) (o : DBus) (name : string) (w : world) :
  nth_error (heap w) self = Some o ->
  mem name (methods o) = false ->
  __getattr__ os self name w = (Raise AttributeError, w).
Proof.
  intros Hload Hmem. unfold __getattr__, bind, load.
  now rewrite Hload, Hmem.
Qed.

Lemma invoke_known (os : OS) (self : ref) (o : DBus) (name : string)
    (args : list Text.pyval) (w : world) :
  nth_error (heap w) self = Some o ->
  mem name (methods o) = true ->
  invoke os self name args w =
  match Shlex.split (call_line o name args) with
  | Some command => await (_send os self command) w
  | None => (Raise ValueError, w)
  end.
Proof.
  intros Hload Hmem.
  unfold invoke, __getattr__, bind at 1 2, load. rewrite Hload, Hmem. cbn [negb ret].
  unfold await at 1, _call_dbus, bind at 1, load. rewrite Hload.
  rewrite format_CALL. unfold bind at 1, or_raise at 1, ret at 1.
  destruct (Shlex.split (call_line o name args)) as [command|]; [|reflexivity].
  unfold bind, or_raise at 1, ret at 1. rewrite try_reraise.
  destruct (await (_send os self command) w) as [[text|e] w']; reflexivity.
Qed.

Lemma invoke_dangling (os : OS) (self : ref) (name : string)
    (args : list Text.pyval) (w : world) :
  nth_error (heap w) self = None ->
  invoke os self name args w = (Raise NoSuchObject, w).
Proof.
  intros Hload. unfold invoke, __getattr__, bind, load. now rewrite Hload.
Qed.

(** No dynamic operation writes to the heap. *)
Lemma invoke_heap (os : OS) (self : ref) (name : string)
    (args : list Text.pyval) (w : world) :
  heap (snd (invoke os self name args w)) = heap w.
Proof.
  destruct (nth_error (heap w) self) as [o|] eqn:Hload.
  - destruct (mem name (methods o)) eqn:Hmem.
    + rewrite (invoke_known os self o name args w Hload Hmem).
      destruct (Shlex.split (call_line o name args)) as [[|program arguments]|];
        [reflexivity | now rewrite send_eq | reflexivity].
    + unfold invoke, bind.
      now rewrite (getattr_unknown os self o name w Hload Hmem).
  - now rewrite invoke_dangling.
Qed.

(** *** connect *)

Lemma connect_eq (os : OS) (fromstring : string -> option ET.Element)
    (bus path : string) (w : world) :
  await (connect os fromstring bus path) w =
  (Ok (length (heap w)), mkWorld (heap w ++ [mkDBus bus path []]) (execs w)).
Proof. reflexivity. Qed.

Lemma nth_error_fresh {A} (l : list A) (x : A) :
  nth_error (l ++ [x]) (length l) = Some x.
Proof. induction l as [|y l IH]; [reflexivity | exact IH]. Qed.

(** *** shlex.split on words that need no quoting *)

Lemma plain_inv (c : ascii) :
  Shlex.plain c = true ->
  Shlex.whitespace c = false /\ Shlex.quotes c = false /\ Shlex.escape c = false.
Proof.
  unfold Shlex.plain. intros H.
  apply andb_prop in H as [H He]. apply andb_prop in H as [Hw Hq].
  repeat split; now apply negb_true_iff.
Qed.

Lemma all_plain_app (a b : string) :
  Shlex.all_plain (a ++ b) = Shlex.all_plain a && Shlex.all_plain b.
Proof.
  induction a as [|c a IH]; simpl; [reflexivity|].
  now rewrite IH, andb_assoc.
Qed.

(** Inside a word, plain characters pile up on the token. *)
Lemma read_word_plain (w : string) :
  forall rest esc token quoted out,
    Shlex.all_plain w = true ->
    Shlex.read (w ++ rest) Shlex.Word esc token quoted out =
    Shlex.read rest Shlex.Word esc (token ++ w) quoted out.
Proof.
  induction w as [|c w IH]; intros rest esc token quoted out Hw; simpl.
  - now rewrite append_nil_r.
  - simpl in Hw. apply andb_prop in Hw as [Hc Hw].
    destruct (plain_inv c Hc) as (-> & -> & ->).
    rewrite IH by assumption. unfold Shlex.push.
    now rewrite append_assoc.
Qed.

(** A bare word followed by a blank is one token. *)
Lemma read_bare_blank (w rest : string) (out : list string) :
  Shlex.bare w = true ->
  Shlex.read (w ++ String " " rest) Shlex.Blank Shlex.Blank EmptyString false out =
  Shlex.read rest Shlex.Blank Shlex.Blank EmptyString false (out ++ [w])%list.
Proof.
  unfold Shlex.bare. destruct w as [|c w]; [discriminate|].
  simpl. intros Hw. apply andb_prop in Hw as [Hc Hw].
  destruct (plain_inv c Hc) as (-> & -> & ->).
  now rewrite read_word_plain by assumption.
Qed.

(** A bare word at the end of the input is one token. *)
Lemma read_bare_end (w : string) (out : list string) :
  Shlex.bare w = true ->
  Shlex.read w Shlex.Blank Shlex.Blank EmptyString false out = Some (out ++ [w])%list.
Proof.
  unfold Shlex.bare. destruct w as [|c w]; [discriminate|].
  simpl. intros Hw. apply andb_prop in Hw as [Hc Hw].
  destruct (plain_inv c Hc) as (-> & -> & ->).
  rewrite <- (append_nil_r w) at 1.
  now rewrite read_word_plain by assumption.
Qed.

(** Bare words joined by single spaces split back into themselves. *)
Lemma read_bare_words (ws : list string) :
  Forall (fun w => Shlex.bare w = true) ws ->
  forall out,
    Shlex.read (Text.join " " ws) Shlex.Blank Shlex.Blank EmptyString false out
    = Some (out ++ ws)%list.
Proof.
  induction 1 as [|w ws Hw Hws IH]; intros out.
  - simpl. now rewrite app_nil_r.
  - destruct ws as [|w' ws'].
    + simpl. now apply read_bare_end.
    + change (Text.join " " (w :: w' :: ws'))
        with (w ++ String " " (Text.join " " (w' :: ws'))).
      rewrite read_bare_blank by assumption.
      rewrite IH. now rewrite <- app_assoc.
Qed.

Lemma split_bare_words (ws : list string) :
  Forall (fun w => Shlex.bare w = true) ws ->
  Shlex.split (Text.join " " ws) = Some ws.
Proof. intros H. unfold Shlex.split. now rewrite read_bare_words. Qed.

Lemma append_cons_assoc (a b r : string) (c : ascii) :
  a ++ String c (b ++ r) = (a ++ String c b) ++ r.
Proof. now rewrite append_assoc. Qed.

(** The tokens already returned stay where they are. *)
Lemma read_extends (input : string) :
  forall st esc token quoted out tokens,
    Shlex.read input st esc token quoted out = Some tokens ->
    exists more, tokens = (out ++ more)%list.
Proof.
  induction input as [|c input IH]; intros st esc token quoted out tokens H.
  - destruct st; simpl in H; try discriminate.
    + injection H as <-. exists []. now rewrite app_nil_r.
    + destruct (negb quoted && (token =? EmptyString)%string);
        injection H as <-; [exists []; now rewrite app_nil_r | now exists [token]].
  - destruct st; simpl in H.
    + destruct (Shlex.whitespace c); [now apply IH in H|].
      destruct (Shlex.escape c); [now apply IH in H|].
      destruct (Shlex.quotes c); now apply IH in H.
    + destruct (Shlex.whitespace c).
      * destruct (negb (token =? EmptyString)%string || quoted); [|now apply IH in H].
        apply IH in H as [more ->]. exists (token :: more).
        now rewrite <- app_assoc.
      * destruct (Shlex.quotes c); [now apply IH in H|].
        destruct (Shlex.escape c); now apply IH in H.
    + destruct (c =? q)%char; [now apply IH in H|].
      destruct (Shlex.escape c && Shlex.escapedquotes q); now apply IH in H.
    + now apply IH in H.
Qed.

(** Whatever the address, the tokens of either command line start with the
    program. *)
Lemma split_introspect_line_cons (o : DBus) (command : list string) :
  Shlex.split (introspect_line o) = Some command ->
  exists arguments, command = "gdbus" :: arguments.
Proof.
  unfold Shlex.split, introspect_line. cbn. intros H.
  apply read_extends in H as [more ->]. eexists. reflexivity.
Qed.

Lemma split_call_line_cons (o : DBus) (method : string) (args : list Text.pyval)
    (command : list string) :
  Shlex.split (call_line o method args) = Some command ->
  exists arguments, command = "gdbus" :: arguments.
Proof.
  unfold Shlex.split, call_line. cbn. intros H.
  apply read_extends in H as [more ->]. eexists. reflexivity.
Qed.


(** *** _init_proxy, when something awaits it *)

Lemma update_ext {A} (f g : A -> A) (l : list A) (i : nat) :
  (forall x, f x = g x) -> update l i f = update l i g.
Proof.
  intros Hfg. revert i.
  induction l as [|x l IH]; intros [|i]; simpl; try reflexivity.
  - now rewrite Hfg.
  - now rewrite IH.
Qed.

Lemma update_update {A} (f g : A -> A) (l : list A) (i : nat) :
  update (update l i f) i g = update l i (fun x => g (f x)).
Proof.
  revert i. induction l as [|x l IH]; intros [|i]; simpl; try reflexivity.
  now rewrite IH.
Qed.

Lemma update_id {A} (f : A -> A) (l : list A) (i : nat) :
  (forall x, f x = x) -> update l i f = l.
Proof.
  intros Hf. revert i.
  induction l as [|x l IH]; intros [|i]; simpl; try reflexivity.
  - now rewrite Hf.
  - now rewrite IH.
Qed.

Lemma nth_error_update {A} (f : A -> A) (l : list A) (i : nat) (x : A) :
  nth_error l i = Some x -> nth_error (update l i f) i = Some (f x).
Proof.
  revert i. induction l as [|y l IH]; intros [|i]; simpl; try discriminate.
  - now intros [= ->].
  - apply IH.
Qed.

(** The loop over the [<method>] elements appends their names in order. *)
Lemma for_each_append (self : ref) (elems : list ET.Element) (w : world) :
  for_each elems (fun method => methods_append self (ET.get method "name")) w
  = (Ok tt,
     registered self (map (fun method => ET.get method "name") elems) w).
Proof.
  revert w. induction elems as [|e elems IH]; intros w.
  - unfold registered. simpl. unfold ret. f_equal.
    destruct w as [h x]. simpl. f_equal.
    symmetry. apply update_id. intros [b p ms]. simpl. now rewrite app_nil_r.
  - simpl. unfold bind at 1, methods_append at 1. rewrite IH.
    unfold registered. simpl. f_equal. f_equal.
    rewrite update_update. apply update_ext.
    intros [b p ms]. simpl. now rewrite <- app_assoc.
Qed.

(** An awaited [_init_proxy] asks for the description, and a status of 0
    with a body that parses makes it record every declared name. *)
Lemma init_proxy_awaited (os : OS) (fromstring : string -> option ET.Element)
    (self : ref) (o : DBus) (command : list string) (data : list byte)
    (text : string) (xml : ET.Element) (w : world) :
  nth_error (heap w) self = Some o ->
  Shlex.split (introspect_line o) = Some command ->
  os (execs w) command = Exited 0 data ->
  Utf8.decode data = Some text ->
  fromstring text = Some xml ->
  await (_init_proxy os fromstring self) w
  = (Ok tt, registered self (declared xml) (logged command w)).
Proof.
  intros Hload Hsplit Hos Hdecode Hparse.
  destruct (split_introspect_line_cons o command Hsplit) as [arguments ->].
  unfold await at 1, _init_proxy, bind at 1, load. rewrite Hload.
  rewrite format_INTROSPECT. unfold bind at 1, or_raise at 1, ret at 1.
  rewrite Hsplit. unfold bind at 1, or_raise at 1, ret at 1.
  unfold bind at 1. rewrite try_reraise, send_eq, Hos, Hdecode. cbn [Z.eqb].
  unfold bind at 1, or_raise. rewrite Hparse. unfold ret at 1.
  apply for_each_append.
Qed.

(** An awaited [_init_proxy] hands on the failure of the transport. *)
Lemma init_proxy_transport_failure (os : OS)
    (fromstring : string -> option ET.Element)
    (self : ref) (o : DBus) (command : list string) (e : exn) (w w' : world) :
  nth_error (heap w) self = Some o ->
  Shlex.split (introspect_line o) = Some command ->
  await (_send os self command) w = (Raise e, w') ->
  await (_init_proxy os fromstring self) w = (Raise e, w').
Proof.
  intros Hload Hsplit Hsend.
  unfold await at 1, _init_proxy, bind at 1, load. rewrite Hload.
  rewrite format_INTROSPECT. unfold bind at 1, or_raise at 1, ret at 1.
  rewrite Hsplit. unfold bind at 1, or_raise at 1, ret at 1.
  unfold bind at 1. now rewrite try_reraise, Hsend.
Qed.

(** An awaited [_init_proxy] raises [DBusParseError] on a body that does
    not parse. *)
Lemma init_proxy_parse_failure (os : OS)
    (fromstring : string -> option ET.Element)
    (self : ref) (o : DBus) (command : list string) (data : list byte)
    (text : string) (w : world) :
  nth_error (heap w) self = Some o ->
  Shlex.split (introspect_line o) = Some command ->
  os (execs w) command = Exited 0 data ->
  Utf8.decode data = Some text ->
  fromstring text = None ->
  await (_init_proxy os fromstring self) w
  = (Raise DBusParseError, logged command w).
Proof.
  intros Hload Hsplit Hos Hdecode Hparse.
  destruct (split_introspect_line_cons o command Hsplit) as [arguments ->].
  unfold await at 1, _init_proxy, bind at 1, load. rewrite Hload.
  rewrite format_INTROSPECT. unfold bind at 1, or_raise at 1, ret at 1.
  rewrite Hsplit. unfold bind at 1, or_raise at 1, ret at 1.
  unfold bind at 1. rewrite try_reraise, send_eq, Hos, Hdecode. cbn [Z.eqb].
  unfold bind at 1, or_raise. now rewrite Hparse.
Qed.

Lemma mem_In (name : string) (ms : list (option string)) :
  mem name ms = true <-> In (Some name) ms.
Proof.
  unfold mem. rewrite existsb_exists. split.
  - intros ([n|] & Hin & Heq); [|discriminate].
    apply String.eqb_eq in Heq. now subst.
  - intros Hin. exists (Some name). split; [assumption | apply String.eqb_refl].
Qed.

Lemma invoke_unknown (os : OS) (self : ref) (o : DBus) (name : string)
    (args : list Text.pyval) (w : world) :
  nth_error (heap w) self = Some o ->
  mem name (methods o) = false ->
  invoke os self name args w = (Raise AttributeError, w).
Proof.
  intros Hload Hmem. unfold invoke, bind.
  now rewrite (getattr_unknown os self o name w Hload Hmem).
Qed.

(** Right after [connect], no name is known to the proxy. *)
Lemma invoke_after_connect (os : OS) (fromstring : string -> option ET.Element)
    (bus path name : string) (args : list Text.pyval) (w : world) :
  let w' := snd (await (connect os fromstring bus path) w) in
  invoke os (length (heap w)) name args w' = (Raise AttributeError, w').
Proof.
  rewrite connect_eq. cbn [snd].
  apply (invoke_unknown os _ (mkDBus bus path [])); [|reflexivity].
  cbn [heap]. apply nth_error_fresh.
Qed.

(** With a stateless operating system, what a dynamic operation answers
    depends on the heap only. *)
Lemma invoke_fst_stateless (os : OS) (self : ref) (name : string)
    (args : list Text.pyval) (w1 w2 : world) :
  stateless os ->
  heap w1 = heap w2 ->
  fst (invoke os self name args w1) = fst (invoke os self name args w2).
Proof.
  intros Hos Hheap.
  destruct (nth_error (heap w2) self) as [o|] eqn:Hload.
  - assert (Hload1 : nth_error (heap w1) self = Some o) by now rewrite Hheap.
    destruct (mem name (methods o)) eqn:Hmem.
    + rewrite (invoke_known os self o name args w1 Hload1 Hmem).
      rewrite (invoke_known os self o name args w2 Hload Hmem).
      destruct (Shlex.split (call_line o name args)) as [[|program arguments]|];
        [reflexivity | | reflexivity].
      rewrite !send_eq. cbn [fst].
      now rewrite (Hos (execs w1) (execs w2) (program :: arguments)).
    + rewrite (invoke_unknown os self o name args w1 Hload1 Hmem).
      now rewrite (invoke_unknown os self o name args w2 Hload Hmem).
  - rewrite (invoke_dangling os self name args w2 Hload).
    rewrite invoke_dangling; [reflexivity | now rewrite Hheap].
Qed.

(* ------------------------------------------------------------------ *)
(** ** The claims *)

(** C10. For every bus name, object path and transport behaviour, awaiting
    [connect] returns a proxy and raises nothing; when it returns, the
    proxy's method list is empty and no command has been handed to the
    transport: the coroutine of [_init_proxy] is built but never awaited,
    so its body has not run. *)
Theorem connect_returns_unpopulated_proxy (os : OS)
    (fromstring : string -> option ET.Element) (bus path : string) (w : world) :
  exists self w',
    await (connect os fromstring bus path) w = (Ok self, w') /\
    nth_error (heap w') self = Some (mkDBus bus path []) /\
    heap w' = (heap w ++ [mkDBus bus path []])%list /\
    execs w' = execs w.
Proof.
  exists (length (heap w)).
  exists (mkWorld (heap w ++ [mkDBus bus path []]) (execs w)).
  split; [apply connect_eq|].
  split; [apply nth_error_fresh|].
  split; reflexivity.
Qed.








(** C7. When the transport exchange of a known method succeeds, the
    invocation returns the very text the transport produced, and leaves the
    world as the transport left it. *)
Theorem call_returns_raw_response (os : OS) (self : ref) (o : DBus)
    (method : string) (args : list Text.pyval) (command : list string)
    (text : string) (w w' : world) :
  nth_error (heap w) self = Some o ->
  In (Some method) (methods o) ->
  Shlex.split (call_line o method args) = Some command ->
  await (_send os self command) w = (Ok text, w') ->
  invoke os self method args w = (Ok text, w').
Proof.
  intros Hload Hin Hsplit Hsend. apply mem_In in Hin.
  rewrite (invoke_known os self o method args w Hload Hin).
  now rewrite Hsplit.
Qed.

Lemma call_returns_raw_response_witness :
  invoke Fixture.os_example 0 "Bar" [Text.PyInt 7] Fixture.ready
  = (Ok "('example',)",
     logged ["gdbus"; "call"; "--system"; "--dest"; "org.example";
             "--object-path"; "/org/example";
             "--method"; "/org/example.Bar"; "7"] Fixture.ready).
Proof.
  apply (call_returns_raw_response Fixture.os_example 0
           (mkDBus "org.example" "/org/example" [Some "Foo"; Some "Bar"; Some "Bar"])
           "Bar" [Text.PyInt 7]
           ["gdbus"; "call"; "--system"; "--dest"; "org.example";
            "--object-path"; "/org/example";
            "--method"; "/org/example.Bar"; "7"]).
  - reflexivity.
  - simpl. right. left. reflexivity.
  - reflexivity.
  - reflexivity.
Defined.

(** C9. An invocation that fails, with whatever exception, leaves the heap
    as it was: the proxy keeps its bus name, its object path and its method
    table.  A later invocation on a stateless operating system answers as
    it would have without the failed one. *)
Theorem failed_invoke_leaves_proxy (os : OS) (self : ref) (name : string)
    (args : list Text.pyval) (e : exn) (w w' : world) :
  invoke os self name args w = (Raise e, w') ->
  heap w' = heap w /\
  nth_error (heap w') self = nth_error (heap w) self /\
  (stateless os ->
   forall name2 args2,
     fst (invoke os self name2 args2 w') = fst (invoke os self name2 args2 w)).
Proof.
  intros Hfail.
  assert (Hheap : heap w' = heap w).
  { pose proof (invoke_heap os self name args w) as H. now rewrite Hfail in H. }
  split; [assumption|]. split; [now rewrite Hheap|].
  intros Hos name2 args2. now apply invoke_fst_stateless.
Qed.

Lemma failed_invoke_leaves_proxy_witness :
  invoke Fixture.os_down 0 "Foo" [] Fixture.ready
  = (Raise DBusFatalError,
     logged ["gdbus"; "call"; "--system"; "--dest"; "org.example";
             "--object-path"; "/org/example";
             "--method"; "/org/example.Foo"] Fixture.ready) /\
  heap (logged ["gdbus"; "call"; "--system"; "--dest"; "org.example";
                "--object-path"; "/org/example";
                "--method"; "/org/example.Foo"] Fixture.ready)
  = heap Fixture.ready /\
  fst (invoke Fixture.os_down 0 "Bar" [Text.PyStr "x"]
         (logged ["gdbus"; "call"; "--system"; "--dest"; "org.example";
                  "--object-path"; "/org/example";
                  "--method"; "/org/example.Foo"] Fixture.ready))
  = fst (invoke Fixture.os_down 0 "Bar" [Text.PyStr "x"] Fixture.ready).
Proof.
  split; [reflexivity|].
  destruct (failed_invoke_leaves_proxy Fixture.os_down 0 "Foo" [] DBusFatalError
              Fixture.ready _ eq_refl) as (Hheap & _ & Hlater).
  split; [exact Hheap|].
  apply Hlater. intros h1 h2 command. reflexivity.
Defined.

(** C1, on the code. When the transport fails on the introspection
    command, awaiting [connect] raises nothing: it returns a proxy, and
    nothing has reached the transport.  The failure is raised only by an
    awaited [_init_proxy], which [connect] never awaits. *)
Theorem connect_hides_transport_failure (os : OS)
    (fromstring : string -> option ET.Element) (bus path : string)
    (command : list string) (e : exn) (w w1 : world) :
  Shlex.split (introspect_line (mkDBus bus path [])) = Some command ->
  await (_send os (length (heap w)) command)
    (snd (await (connect os fromstring bus path) w)) = (Raise e, w1) ->
  fst (await (connect os fromstring bus path) w) = Ok (length (heap w)) /\
  execs (snd (await (connect os fromstring bus path) w)) = execs w /\
  await (_init_proxy os fromstring (length (heap w)))
    (snd (await (connect os fromstring bus path) w)) = (Raise e, w1).
Proof.
  intros Hsplit Hsend. rewrite connect_eq in *. cbn [fst snd] in *.
  split; [reflexivity|]. split; [reflexivity|].
  apply (init_proxy_transport_failure os fromstring _ (mkDBus bus path []) command);
    try assumption.
  cbn [heap]. apply nth_error_fresh.
Qed.

Lemma connect_hides_transport_failure_witness :
  fst (await (connect Fixture.os_down Fixture.fromstring_one
                "org.example" "/org/example") Fixture.fresh) = Ok 0 /\
  execs (snd (await (connect Fixture.os_down Fixture.fromstring_one
                       "org.example" "/org/example") Fixture.fresh)) = [] /\
  await (_init_proxy Fixture.os_down Fixture.fromstring_one 0)
    (snd (await (connect Fixture.os_down Fixture.fromstring_one
                   "org.example" "/org/example") Fixture.fresh))
  = (Raise DBusFatalError,
     mkWorld [mkDBus "org.example" "/org/example" []]
       [["gdbus"; "introspect"; "--system"; "--dest"; "org.example";
         "--object-path"; "/org/example"; "--xml"]]).
Proof.
  exact (connect_hides_transport_failure Fixture.os_down Fixture.fromstring_one
           "org.example" "/org/example"
           ["gdbus"; "introspect"; "--system"; "--dest"; "org.example";
            "--object-path"; "/org/example"; "--xml"]
           DBusFatalError Fixture.fresh _ eq_refl eq_refl).
Defined.

(** C2, on the code. Although the transport answers the introspection
    command with a body that parses and declares [name], the proxy that
    [connect] returns does not know [name]: invoking it raises
    [AttributeError].  Only an awaited [_init_proxy] would put [name] into
    the method table. *)
Theorem connect_registers_no_method (os : OS)
    (fromstring : string -> option ET.Element) (bus path : string)
    (command : list string) (data : list byte) (text : string)
    (xml : ET.Element) (name : string) (args : list Text.pyval) (w : world) :
  Shlex.split (introspect_line (mkDBus bus path [])) = Some command ->
  os (execs w) command = Exited 0 data ->
  Utf8.decode data = Some text ->
  fromstring text = Some xml ->
  In (Some name) (declared xml) ->
  invoke os (length (heap w)) name args
    (snd (await (connect os fromstring bus path) w))
  = (Raise AttributeError, snd (await (connect os fromstring bus path) w)) /\
  exists w2,
    await (_init_proxy os fromstring (length (heap w)))
      (snd (await (connect os fromstring bus path) w)) = (Ok tt, w2) /\
    nth_error (heap w2) (length (heap w)) = Some (mkDBus bus path (declared xml)).
Proof.
  intros Hsplit Hos Hdecode Hparse Hin.
  split; [apply invoke_after_connect|].
  rewrite connect_eq. cbn [snd].
  eexists. split.
  - apply (init_proxy_awaited os fromstring _ (mkDBus bus path []) command data text xml);
      try assumption.
    cbn [heap]. apply nth_error_fresh.
  - unfold registered, logged. cbn [heap].
    now rewrite (nth_error_update _ _ _ (mkDBus bus path []) (nth_error_fresh _ _)).
Qed.

Lemma connect_registers_no_method_witness :
  invoke Fixture.os_example 0 "Foo" []
    (snd (await (connect Fixture.os_example Fixture.fromstring_one
                   "org.example" "/org/example") Fixture.fresh))
  = (Raise AttributeError,
     snd (await (connect Fixture.os_example Fixture.fromstring_one
                   "org.example" "/org/example") Fixture.fresh)) /\
  exists w2,
    await (_init_proxy Fixture.os_example Fixture.fromstring_one 0)
      (snd (await (connect Fixture.os_example Fixture.fromstring_one
                     "org.example" "/org/example") Fixture.fresh)) = (Ok tt, w2) /\
    nth_error (heap w2) 0
    = Some (mkDBus "org.example" "/org/example" (declared Fixture.foo_bar_bar)).
Proof.
  apply (connect_registers_no_method Fixture.os_example Fixture.fromstring_one
           "org.example" "/org/example"
           ["gdbus"; "introspect"; "--system"; "--dest"; "org.example";
            "--object-path"; "/org/example"; "--xml"]
           (list_byte_of_string Fixture.foo_bar_bar_xml)
           Fixture.foo_bar_bar_xml Fixture.foo_bar_bar "Foo" [] Fixture.fresh).
  - reflexivity.
  - reflexivity.
  - vm_compute. reflexivity.
  - vm_compute. reflexivity.
  - simpl. left. reflexivity.
Defined.

(** C3, on the code. Although the transport answers the introspection
    command with a body that does not parse, awaiting [connect] raises
    nothing and returns a proxy.  Only an awaited [_init_proxy] would raise
    [DBusParseError], an exception other than the two transport errors. *)
Theorem connect_hides_parse_failure (os : OS)
    (fromstring : string -> option ET.Element) (bus path : string)
    (command : list string) (data : list byte) (text : string) (w : world) :
  Shlex.split (introspect_line (mkDBus bus path [])) = Some command ->
  os (execs w) command = Exited 0 data ->
  Utf8.decode data = Some text ->
  fromstring text = None ->
  fst (await (connect os fromstring bus path) w) = Ok (length (heap w)) /\
  await (_init_proxy os fromstring (length (heap w)))
    (snd (await (connect os fromstring bus path) w))
  = (Raise DBusParseError,
     logged command (snd (await (connect os fromstring bus path) w))) /\
  DBusParseError <> DBusFatalError /\
  DBusParseError <> DBusReturnError.
Proof.
  intros Hsplit Hos Hdecode Hparse. rewrite connect_eq. cbn [fst snd].
  split; [reflexivity|]. split; [|split; discriminate].
  apply (init_proxy_parse_failure os fromstring _ (mkDBus bus path []) command data text);
    try assumption.
  cbn [heap]. apply nth_error_fresh.
Qed.

Lemma connect_hides_parse_failure_witness :
  fst (await (connect
                (Fixture.os_always (Exited 0 (list_byte_of_string Fixture.truncated_xml)))
                Fixture.fromstring_one "org.example" "/org/example") Fixture.fresh)
  = Ok 0 /\
  fst (await (_init_proxy
                (Fixture.os_always (Exited 0 (list_byte_of_string Fixture.truncated_xml)))
                Fixture.fromstring_one 0)
         (snd (await (connect
                        (Fixture.os_always
                           (Exited 0 (list_byte_of_string Fixture.truncated_xml)))
                        Fixture.fromstring_one "org.example" "/org/example")
                 Fixture.fresh)))
  = Raise DBusParseError.
Proof.
  destruct (connect_hides_parse_failure
              (Fixture.os_always (Exited 0 (list_byte_of_string Fixture.truncated_xml)))
              Fixture.fromstring_one "org.example" "/org/example"
              ["gdbus"; "introspect"; "--system"; "--dest"; "org.example";
               "--object-path"; "/org/example"; "--xml"]
              (list_byte_of_string Fixture.truncated_xml)
              Fixture.truncated_xml Fixture.fresh
              eq_refl eq_refl eq_refl eq_refl) as (Hconnect & Hinit & _).
  split; [exact Hconnect|].
  exact (f_equal fst Hinit).
Defined.

(** C8, on the code. With an introspection body that declares [Foo], [Bar]
    and [Bar] again, the proxy that [connect] returns knows neither [Foo]
    nor [Bar]: invoking either raises [AttributeError].  Only an awaited
    [_init_proxy] would record the three names, after which exactly [Foo]
    and [Bar] would be known. *)
Theorem connect_foo_bar_bar_unknown (os : OS)
    (fromstring : string -> option ET.Element) (bus path : string)
    (command : list string) (data : list byte) (text : string)
    (args : list Text.pyval) (w : world) :
  Shlex.split (introspect_line (mkDBus bus path [])) = Some command ->
  os (execs w) command = Exited 0 data ->
  Utf8.decode data = Some text ->
  fromstring text = Some Fixture.foo_bar_bar ->
  invoke os (length (heap w)) "Foo" args
    (snd (await (connect os fromstring bus path) w))
  = (Raise AttributeError, snd (await (connect os fromstring bus path) w)) /\
  invoke os (length (heap w)) "Bar" args
    (snd (await (connect os fromstring bus path) w))
  = (Raise AttributeError, snd (await (connect os fromstring bus path) w)) /\
  exists w2,
    await (_init_proxy os fromstring (length (heap w)))
      (snd (await (connect os fromstring bus path) w)) = (Ok tt, w2) /\
    nth_error (heap w2) (length (heap w))
    = Some (mkDBus bus path [Some "Foo"; Some "Bar"; Some "Bar"]) /\
    forall name,
      mem name [Some "Foo"; Some "Bar"; Some "Bar"] = true
      <-> name = "Foo" \/ name = "Bar".
Proof.
  intros Hsplit Hos Hdecode Hparse.
  split; [apply invoke_after_connect|].
  split; [apply invoke_after_connect|].
  rewrite connect_eq. cbn [snd].
  eexists. split; [|split].
  - apply (init_proxy_awaited os fromstring _ (mkDBus bus path []) command data text
             Fixture.foo_bar_bar); try assumption.
    cbn [heap]. apply nth_error_fresh.
  - unfold registered, logged. cbn [heap].
    now rewrite (nth_error_update _ _ _ (mkDBus bus path []) (nth_error_fresh _ _)).
  - intros name. rewrite mem_In. simpl. split.
    + intros [H|[H|[H|[]]]]; injection H as <-; auto.
    + intros [->| ->]; auto.
Qed.

Lemma connect_foo_bar_bar_unknown_witness :
  invoke Fixture.os_example 0 "Foo" [Text.PyStr "a"]
    (snd (await (connect Fixture.os_example Fixture.fromstring_one
                   "org.example" "/org/example") Fixture.fresh))
  = (Raise AttributeError,
     snd (await (connect Fixture.os_example Fixture.fromstring_one
                   "org.example" "/org/example") Fixture.fresh)) /\
  invoke Fixture.os_example 0 "Bar" [Text.PyStr "a"]
    (snd (await (connect Fixture.os_example Fixture.fromstring_one
                   "org.example" "/org/example") Fixture.fresh))
  = (Raise AttributeError,
     snd (await (connect Fixture.os_example Fixture.fromstring_one
                   "org.example" "/org/example") Fixture.fresh)).
Proof.
  destruct (connect_foo_bar_bar_unknown Fixture.os_example Fixture.fromstring_one
              "org.example" "/org/example"
              ["gdbus"; "introspect"; "--system"; "--dest"; "org.example";
               "--object-path"; "/org/example"; "--xml"]
              (list_byte_of_string Fixture.foo_bar_bar_xml)
              Fixture.foo_bar_bar_xml [Text.PyStr "a"] Fixture.fresh
              eq_refl eq_refl eq_refl eq_refl) as (Hfoo & Hbar & _).
  split; assumption.
Defined.

(* ------------------------------------------------------------------ *)
(** ** Further properties of the module *)

(** *** _init_proxy, step by step *)

Lemma init_proxy_eq (os : OS) (fromstring : string -> option ET.Element)
    (self : ref) (o : DBus) (w : world) :
  nth_error (heap w) self = Some o ->
  await (_init_proxy os fromstring self) w =
  match Shlex.split (introspect_line o) with
  | None => (Raise ValueError, w)
  | Some command =>
    match await (_send os self command) w with
    | (Raise e, w1) => (Raise e, w1)
    | (Ok text, w1) =>
      match fromstring text with
      | None => (Raise DBusParseError, w1)
      | Some xml => (Ok tt, registered self (declared xml) w1)
      end
    end
  end.
Proof.
  intros Hload.
  unfold await at 1, _init_proxy, bind at 1, load. rewrite Hload.
  rewrite format_INTROSPECT. unfold bind at 1, or_raise at 1, ret at 1.
  destruct (Shlex.split (introspect_line o)) as [command|]; [|reflexivity].
  unfold bind at 1, or_raise at 1, ret at 1.
  unfold bind at 1. rewrite try_reraise.
  destruct (await (_send os self command) w) as [[text|e] w1]; [|reflexivity].
  unfold bind at 1, or_raise.
  destruct (fromstring text) as [xml|]; [|reflexivity].
  unfold ret at 1. apply for_each_append.
Qed.

Lemma init_proxy_dangling (os : OS) (fromstring : string -> option ET.Element)
    (self : ref) (w : world) :
  nth_error (heap w) self = None ->
  await (_init_proxy os fromstring self) w = (Raise NoSuchObject, w).
Proof.
  intros Hload. unfold await, _init_proxy, bind, load. now rewrite Hload.
Qed.

Lemma nth_error_update_other {A} (f : A -> A) (l : list A) (i j : nat) :
  i <> j -> nth_error (update l i f) j = nth_error l j.
Proof.
  revert i j. induction l as [|x l IH]; intros [|i] [|j] Hij; simpl;
    try reflexivity; try contradiction.
  apply IH. congruence.
Qed.

Lemma mem_app (name : string) (ms1 ms2 : list (option string)) :
  mem name (ms1 ++ ms2) = mem name ms1 || mem name ms2.
Proof. unfold mem. apply existsb_app. Qed.






(** X3. An awaited [_init_proxy], however it ends, touches no other object
    of the heap, and leaves its own proxy's bus name and object path alone:
    it can only append to that proxy's method list. *)
Theorem init_proxy_frame (os : OS) (fromstring : string -> option ET.Element)
    (self : ref) (o : DBus) (w : world) :
  nth_error (heap w) self = Some o ->
  (forall other,
     other <> self ->
     nth_error (heap (snd (await (_init_proxy os fromstring self) w))) other
     = nth_error (heap w) other) /\
  exists names,
    nth_error (heap (snd (await (_init_proxy os fromstring self) w))) self
    = Some (mkDBus (bus_name o) (object_path o) (methods o ++ names)).
Proof.
  intros Hload. rewrite (init_proxy_eq os fromstring self o w Hload).
  assert (Hsame : nth_error (heap w) self
                  = Some (mkDBus (bus_name o) (object_path o) (methods o ++ []))).
  { rewrite Hload, app_nil_r. now destruct o. }
  destruct (Shlex.split (introspect_line o)) as [[|program arguments]|].
  - rewrite send_nil. cbn [snd]. split; [reflexivity | now exists []].
  - rewrite send_eq.
    destruct (os (execs w) (program :: arguments)) as [|rc data];
      [cbn [snd]; split; [reflexivity | now exists []]|].
    destruct (rc =? 0)%Z; [|cbn [snd]; split; [reflexivity | now exists []]].
    destruct (Utf8.decode data) as [text|];
      [|cbn [snd]; split; [reflexivity | now exists []]].
    destruct (fromstring text) as [xml|];
      [|cbn [snd]; split; [reflexivity | now exists []]].
    cbn [snd]. unfold registered, logged. cbn [heap]. split.
    + intros other Hother. apply nth_error_update_other. congruence.
    + exists (declared xml). now rewrite (nth_error_update _ _ _ o Hload).
  - cbn [snd]. split; [reflexivity | now exists []].
Qed.

Lemma init_proxy_frame_witness :
  nth_error
    (heap (snd (await (_init_proxy Fixture.os_example Fixture.fromstring_one 1)
                  (mkWorld [mkDBus "org.other" "/org/other" [Some "Ping"];
                            mkDBus "org.example" "/org/example" []] [])))) 0
  = Some (mkDBus "org.other" "/org/other" [Some "Ping"]).
Proof.
  apply (proj1 (init_proxy_frame Fixture.os_example Fixture.fromstring_one 1
                  (mkDBus "org.example" "/org/example" [])
                  (mkWorld [mkDBus "org.other" "/org/other" [Some "Ping"];
                            mkDBus "org.example" "/org/example" []] [])
                  eq_refl) 0).
  discriminate.
Defined.

(** *** The commands that are run *)

Lemma split_introspect_line (o : DBus) :
  Shlex.bare (bus_name o) = true ->
  Shlex.bare (object_path o) = true ->
  Shlex.split (introspect_line o) = Some (introspect_tokens o).
Proof.
  intros Hbus Hpath. unfold Shlex.split, introspect_line, introspect_tokens. cbn.
  rewrite read_bare_blank by assumption. cbn.
  rewrite read_bare_blank by assumption. reflexivity.
Qed.

Lemma split_introspect_line_prefix (o : DBus) (command : list string) :
  Shlex.split (introspect_line o) = Some command ->
  exists rest, command = "gdbus" :: "introspect" :: "--system" :: "--dest" :: rest.
Proof.
  unfold Shlex.split, introspect_line. cbn. intros H.
  apply read_extends in H as [more ->]. eexists. reflexivity.
Qed.


(** X4. For a bus name and an object path that need no quoting, an awaited
    [_init_proxy] runs one command, [gdbus introspect --system --dest <bus>
    --object-path <path> --xml], whatever the process then answers. *)
Theorem init_proxy_command (os : OS) (fromstring : string -> option ET.Element)
    (self : ref) (o : DBus) (w : world) :
  nth_error (heap w) self = Some o ->
  Shlex.bare (bus_name o) = true ->
  Shlex.bare (object_path o) = true ->
  execs (snd (await (_init_proxy os fromstring self) w))
  = (execs w ++
     [["gdbus"; "introspect"; "--system"; "--dest"; bus_name o;
       "--object-path"; object_path o; "--xml"]])%list.
Proof.
  intros Hload Hbus Hpath. rewrite (init_proxy_eq os fromstring self o w Hload).
  rewrite (split_introspect_line o Hbus Hpath). unfold introspect_tokens.
  rewrite send_eq.
  destruct (os (execs w) _) as [|rc data]; [reflexivity|].
  destruct (rc =? 0)%Z; [|reflexivity].
  destruct (Utf8.decode data) as [text|]; [|reflexivity].
  destruct (fromstring text) as [xml|]; reflexivity.
Qed.

Lemma init_proxy_command_witness :
  execs (snd (await (_init_proxy Fixture.os_down Fixture.fromstring_one 0)
                Fixture.ready))
  = [["gdbus"; "introspect"; "--system"; "--dest"; "org.example";
      "--object-path"; "/org/example"; "--xml"]].
Proof.
  exact (init_proxy_command Fixture.os_down Fixture.fromstring_one 0
           (mkDBus "org.example" "/org/example" [Some "Foo"; Some "Bar"; Some "Bar"])
           Fixture.ready eq_refl eq_refl eq_refl).
Defined.


(** X6. Whatever the bus name and the object path are, an awaited
    [_init_proxy] runs at most one command, and that command starts with
    the tokens [gdbus introspect --system --dest]. *)
Theorem init_proxy_runs_gdbus_introspect (os : OS)
    (fromstring : string -> option ET.Element) (self : ref) (w : world) :
  execs (snd (await (_init_proxy os fromstring self) w)) = execs w \/
  exists rest,
    execs (snd (await (_init_proxy os fromstring self) w))
    = (execs w ++ ["gdbus" :: "introspect" :: "--system" :: "--dest" :: rest])%list.
Proof.
  destruct (nth_error (heap w) self) as [o|] eqn:Hload.
  - rewrite (init_proxy_eq os fromstring self o w Hload).
    destruct (Shlex.split (introspect_line o)) as [command|] eqn:Hsplit;
      [|now left].
    destruct (split_introspect_line_prefix o command Hsplit) as [rest ->].
    right. exists rest. rewrite send_eq.
    destruct (os (execs w) _) as [|rc data]; [reflexivity|].
    destruct (rc =? 0)%Z; [|reflexivity].
    destruct (Utf8.decode data) as [text|]; [|reflexivity].
    destruct (fromstring text) as [xml|]; reflexivity.
  - left. now rewrite init_proxy_dangling.
Qed.

(** *** How an invocation can fail *)



(** X8. When the process behind a known method cannot be started, the
    invocation raises [DBusFatalError]; when it ends with a status other
    than 0, the invocation raises [DBusReturnError] and what the process
    printed is not returned.  Either way the proxy's handler only passes the
    exception on, after the one command has been run. *)
Theorem invoke_transport_failure (os : OS) (self : ref) (o : DBus)
    (method : string) (args : list Text.pyval) (command : list string)
    (w : world) :
  nth_error (heap w) self = Some o ->
  In (Some method) (methods o) ->
  Shlex.split (call_line o method args) = Some command ->
  (os (execs w) command = OSError ->
   invoke os self method args w = (Raise DBusFatalError, logged command w)) /\
  (forall returncode data,
     os (execs w) command = Exited returncode data ->
     returncode <> 0%Z ->
     invoke os self method args w = (Raise DBusReturnError, logged command w)).
Proof.
  intros Hload Hin Hsplit. apply mem_In in Hin.
  rewrite (invoke_known os self o method args w Hload Hin), Hsplit.
  destruct (split_call_line_cons o method args command Hsplit) as [arguments ->].
  rewrite send_eq. split.
  - now intros ->.
  - intros rc data -> Hrc.
    destruct (Z.eqb_spec rc 0) as [E|_]; [contradiction | reflexivity].
Qed.

Lemma invoke_transport_failure_witness :
  invoke (Fixture.os_always (Exited 1 (list_byte_of_string "partial")))
    0 "Foo" [Text.PyStr "a"] Fixture.ready
  = (Raise DBusReturnError,
     logged ["gdbus"; "call"; "--system"; "--dest"; "org.example";
             "--object-path"; "/org/example"; "--method"; "/org/example.Foo"; "a"]
       Fixture.ready).
Proof.
  apply (proj2 (invoke_transport_failure
                  (Fixture.os_always (Exited 1 (list_byte_of_string "partial")))
                  0
                  (mkDBus "org.example" "/org/example"
                     [Some "Foo"; Some "Bar"; Some "Bar"])
                  "Foo" [Text.PyStr "a"]
                  ["gdbus"; "call"; "--system"; "--dest"; "org.example";
                   "--object-path"; "/org/example"; "--method"; "/org/example.Foo"; "a"]
                  Fixture.ready eq_refl (or_introl eq_refl) eq_refl)
           1%Z (list_byte_of_string "partial") eq_refl).
  discriminate.
Defined.

(** X9. An invocation sees its arguments only through their texts joined
    by spaces: two argument lists with the same joined text give the same
    invocation, result and world alike.  So one argument [a b] cannot be
    told from the two arguments [a] and [b], nor the number 2 from the
    string 2. *)
Theorem invoke_args_by_text (os : OS) (self : ref) (name : string)
    (args1 args2 : list Text.pyval) (w : world) :
  Text.join " " (map Text.str args1) = Text.join " " (map Text.str args2) ->
  invoke os self name args1 w = invoke os self name args2 w.
Proof.
  intros Htext.
  destruct (nth_error (heap w) self) as [o|] eqn:Hload.
  - destruct (mem name (methods o)) eqn:Hmem.
    + rewrite (invoke_known os self o name args1 w Hload Hmem).
      rewrite (invoke_known os self o name args2 w Hload Hmem).
      unfold call_line. now rewrite Htext.
    + rewrite (invoke_unknown os self o name args1 w Hload Hmem).
      now rewrite (invoke_unknown os self o name args2 w Hload Hmem).
  - now rewrite !invoke_dangling.
Qed.

Lemma invoke_args_by_text_witness :
  invoke Fixture.os_example 0 "Foo" [Text.PyStr "a b"; Text.PyInt 2] Fixture.ready
  = invoke Fixture.os_example 0 "Foo"
      [Text.PyStr "a"; Text.PyStr "b"; Text.PyStr "2"] Fixture.ready.
Proof.
  exact (invoke_args_by_text Fixture.os_example 0 "Foo"
           [Text.PyStr "a b"; Text.PyInt 2]
           [Text.PyStr "a"; Text.PyStr "b"; Text.PyStr "2"] Fixture.ready eq_refl).
Defined.

(** *** Apostrophes in the arguments *)

(** Between apostrophes every character but the apostrophe is taken as it
    is, the backslash too. *)
Lemma read_in_apostrophes (w : string) :
  forall rest esc token quoted out,
    no_apostrophe w = true ->
    Shlex.read (w ++ String "'" rest) (Shlex.Quote "'") esc token quoted out =
    Shlex.read rest Shlex.Word esc (token ++ w) true out.
Proof.
  induction w as [|c w IH]; intros rest esc token quoted out Hw.
  - simpl. now rewrite append_nil_r.
  - simpl in Hw. apply andb_prop in Hw as [Hc Hw].
    apply negb_true_iff in Hc. simpl. rewrite Hc.
    change (Shlex.escapedquotes "'") with false. rewrite andb_false_r.
    rewrite IH by assumption. unfold Shlex.push. now rewrite append_assoc.
Qed.

(** An apostrophe that is never closed makes the tokenizer fail. *)
Lemma read_unclosed (w : string) :
  forall esc token quoted out,
    no_apostrophe w = true ->
    Shlex.read w (Shlex.Quote "'") esc token quoted out = None.
Proof.
  induction w as [|c w IH]; intros esc token quoted out Hw; [reflexivity|].
  simpl in Hw. apply andb_prop in Hw as [Hc Hw].
  apply negb_true_iff in Hc. simpl. rewrite Hc.
  change (Shlex.escapedquotes "'") with false. rewrite andb_false_r.
  now apply IH.
Qed.

Lemma read_word_of_blank (text token rest : string) (out : list string) :
  word_of text token ->
  Shlex.read (text ++ String " " rest) Shlex.Blank Shlex.Blank EmptyString false out =
  Shlex.read rest Shlex.Blank Shlex.Blank EmptyString false (out ++ [token])%list.
Proof.
  intros [w Hw | w Hw].
  - now apply read_bare_blank.
  - change (("'" ++ w ++ "'") ++ String " " rest)
      with (String "'" ((w ++ "'") ++ String " " rest)).
    rewrite append_assoc. simpl.
    rewrite read_in_apostrophes by assumption. simpl.
    now rewrite orb_true_r.
Qed.

Lemma read_word_of_end (text token : string) (out : list string) :
  word_of text token ->
  Shlex.read text Shlex.Blank Shlex.Blank EmptyString false out
  = Some (out ++ [token])%list.
Proof.
  intros [w Hw | w Hw].
  - now apply read_bare_end.
  - simpl. now rewrite read_in_apostrophes by assumption.
Qed.

Lemma read_words_of (texts tokens : list string) :
  Forall2 word_of texts tokens ->
  forall out,
    Shlex.read (Text.join " " texts) Shlex.Blank Shlex.Blank EmptyString false out
    = Some (out ++ tokens)%list.
Proof.
  induction 1 as [|text token texts tokens Hword Hrest IH]; intros out.
  - simpl. now rewrite app_nil_r.
  - destruct texts as [|text' texts'].
    + inversion Hrest; subst. simpl. now apply read_word_of_end.
    + change (Text.join " " (text :: text' :: texts'))
        with (text ++ String " " (Text.join " " (text' :: texts'))).
      rewrite (read_word_of_blank text token) by assumption.
      rewrite IH. now rewrite <- app_assoc.
Qed.

Lemma read_words_unclosed (ws : list string) (p w : string) :
  Forall (fun x => Shlex.bare x = true) ws ->
  Shlex.all_plain p = true ->
  no_apostrophe w = true ->
  forall out,
    Shlex.read (Text.join " " (ws ++ [p ++ String "'" w]))
      Shlex.Blank Shlex.Blank EmptyString false out = None.
Proof.
  intros Hws Hp Hw. induction Hws as [|w0 ws Hw0 Hws IH]; intros out.
  - simpl. destruct p as [|c p].
    + simpl. now apply read_unclosed.
    + simpl in Hp. apply andb_prop in Hp as [Hc Hp].
      destruct (plain_inv c Hc) as (Hws' & Hq & He).
      simpl. rewrite Hws', Hq, He.
      rewrite read_word_plain by assumption. simpl.
      now apply read_unclosed.
  - assert (Hjoin : Text.join " " ((w0 :: ws) ++ [p ++ String "'" w])
                    = w0 ++ String " " (Text.join " " (ws ++ [p ++ String "'" w]))).
    { destruct ws; reflexivity. }
    rewrite Hjoin, read_bare_blank by assumption. apply IH.
Qed.

(** With an address and a method that need no quoting, the tokenizer
    reaches the arguments with the nine fixed tokens behind it. *)
Lemma read_call_line (o : DBus) (method : string) (args : list Text.pyval) :
  Shlex.bare (bus_name o) = true ->
  Shlex.bare (object_path o) = true ->
  Shlex.all_plain method = true ->
  Shlex.split (call_line o method args) =
  Shlex.read (Text.join " " (map Text.str args))
    Shlex.Blank Shlex.Blank EmptyString false
    ["gdbus"; "call"; "--system"; "--dest"; bus_name o;
     "--object-path"; object_path o; "--method"; object_path o ++ "." ++ method].
Proof.
  intros Hbus Hpath Hmethod.
  unfold Shlex.split, call_line. cbn.
  rewrite read_bare_blank by assumption. cbn.
  rewrite read_bare_blank by assumption. cbn.
  rewrite append_cons_assoc.
  rewrite read_bare_blank; [reflexivity|].
  unfold Shlex.bare in *. apply andb_prop in Hpath as [Hne Hp].
  rewrite all_plain_app. simpl. rewrite Hp, Hmethod.
  destruct (object_path o); [discriminate | reflexivity].
Qed.

(** X10. An argument written between apostrophes reaches the process as one
    token, blanks, double quotes and backslashes included, without the
    apostrophes; an argument that needs no quoting reaches it as it is.
    The command run is the nine fixed tokens followed by one token for each
    argument. *)
Theorem invoke_quoted_arguments (os : OS) (self : ref) (o : DBus)
    (method : string) (args : list Text.pyval) (tokens : list string) (w : world) :
  nth_error (heap w) self = Some o ->
  In (Some method) (methods o) ->
  Shlex.bare (bus_name o) = true ->
  Shlex.bare (object_path o) = true ->
  Shlex.all_plain method = true ->
  Forall2 word_of (map Text.str args) tokens ->
  execs (snd (invoke os self method args w))
  = (execs w ++
     [["gdbus"; "call"; "--system"; "--dest"; bus_name o;
       "--object-path"; object_path o;
       "--method"; (object_path o ++ "." ++ method)%string]
      ++ tokens])%list.
Proof.
  intros Hload Hin Hbus Hpath Hmethod Hwords. apply mem_In in Hin.
  rewrite (invoke_known os self o method args w Hload Hin).
  rewrite (read_call_line o method args Hbus Hpath Hmethod).
  rewrite (read_words_of _ tokens Hwords). cbn [app].
  now rewrite send_eq.
Qed.

Lemma invoke_quoted_arguments_witness :
  execs (snd (invoke Fixture.os_example 0 "Foo"
                [Text.PyStr "'hello  world'"; Text.PyInt 7] Fixture.ready))
  = [["gdbus"; "call"; "--system"; "--dest"; "org.example";
      "--object-path"; "/org/example"; "--method"; "/org/example.Foo";
      "hello  world"; "7"]].
Proof.
  apply (invoke_quoted_arguments Fixture.os_example 0
           (mkDBus "org.example" "/org/example" [Some "Foo"; Some "Bar"; Some "Bar"])
           "Foo" [Text.PyStr "'hello  world'"; Text.PyInt 7]
           ["hello  world"; "7"] Fixture.ready).
  - reflexivity.
  - simpl. left. reflexivity.
  - reflexivity.
  - reflexivity.
  - reflexivity.
  - simpl. constructor.
    + apply (word_quoted "hello  world"). reflexivity.
    + constructor; [|constructor]. apply (word_bare "7"). reflexivity.
Defined.

(** X11. When the last argument holds an apostrophe that is never closed,
    as in [it's], the invocation of a known method raises [ValueError] and
    runs nothing: the world is as before. *)
Theorem invoke_unclosed_apostrophe (os : OS) (self : ref) (o : DBus)
    (method : string) (args : list Text.pyval) (last : Text.pyval)
    (p rest : string) (w : world) :
  nth_error (heap w) self = Some o ->
  In (Some method) (methods o) ->
  Shlex.bare (bus_name o) = true ->
  Shlex.bare (object_path o) = true ->
  Shlex.all_plain method = true ->
  Forall (fun a => Shlex.bare (Text.str a) = true) args ->
  Text.str last = p ++ String "'" rest ->
  Shlex.all_plain p = true ->
  no_apostrophe rest = true ->
  invoke os self method (args ++ [last]) w = (Raise ValueError, w).
Proof.
  intros Hload Hin Hbus Hpath Hmethod Hargs Hlast Hp Hrest. apply mem_In in Hin.
  rewrite (invoke_known os self o method (args ++ [last]) w Hload Hin).
  rewrite (read_call_line o method (args ++ [last]) Hbus Hpath Hmethod).
  rewrite map_app. simpl map. rewrite Hlast.
  rewrite read_words_unclosed; try assumption; [reflexivity|].
  now apply Forall_map.
Qed.

Lemma invoke_unclosed_apostrophe_witness :
  invoke Fixture.os_example 0 "Foo" ([Text.PyStr "say"] ++ [Text.PyStr "it's"])
    Fixture.ready
  = (Raise ValueError, Fixture.ready).
Proof.
  apply (invoke_unclosed_apostrophe Fixture.os_example 0
           (mkDBus "org.example" "/org/example" [Some "Foo"; Some "Bar"; Some "Bar"])
           "Foo" [Text.PyStr "say"] (Text.PyStr "it's") "it" "s" Fixture.ready).
  - reflexivity.
  - simpl. left. reflexivity.
  - reflexivity.
  - reflexivity.
  - reflexivity.
  - constructor; [reflexivity | constructor].
  - reflexivity.
  - reflexivity.
  - reflexivity.
Defined.

(** *** Introspection awaited by the caller *)

Lemma init_proxy_ok_inv (os : OS) (fromstring : string -> option ET.Element)
    (self : ref) (o : DBus) (w w' : world) :
  nth_error (heap w) self = Some o ->
  await (_init_proxy os fromstring self) w = (Ok tt, w') ->
  exists command data text xml,
    Shlex.split (introspect_line o) = Some command /\
    os (execs w) command = Exited 0 data /\
    Utf8.decode data = Some text /\
    fromstring text = Some xml /\
    w' = registered self (declared xml) (logged command w).
Proof.
  intros Hload Hinit. rewrite (init_proxy_eq os fromstring self o w Hload) in Hinit.
  destruct (Shlex.split (introspect_line o)) as [command|] eqn:Hsplit;
    [|discriminate].
  destruct (split_introspect_line_cons o command Hsplit) as [arguments ->].
  rewrite send_eq in Hinit.
  destruct (os (execs w) ("gdbus" :: arguments)) as [|rc data] eqn:Hos;
    [discriminate|].
  destruct (Z.eqb_spec rc 0) as [->|_]; [|discriminate].
  destruct (Utf8.decode data) as [text|] eqn:Hdecode; [|discriminate].
  destruct (fromstring text) as [xml|] eqn:Hparse; [|discriminate].
  injection Hinit as <-.
  now exists ("gdbus" :: arguments), data, text, xml.
Qed.



(** X13. Awaiting [_init_proxy] a second time, on an operating system
    whose answers do not depend on history, appends the same names again
    and so changes nothing to which names the proxy knows. *)
Theorem init_proxy_twice_same_names (os : OS)
    (fromstring : string -> option ET.Element) (self : ref) (o : DBus)
    (w w1 w2 : world) :
  stateless os ->
  nth_error (heap w) self = Some o ->
  await (_init_proxy os fromstring self) w = (Ok tt, w1) ->
  await (_init_proxy os fromstring self) w1 = (Ok tt, w2) ->
  (exists names,
     nth_error (heap w1) self
     = Some (mkDBus (bus_name o) (object_path o) (methods o ++ names)) /\
     nth_error (heap w2) self
     = Some (mkDBus (bus_name o) (object_path o) ((methods o ++ names) ++ names))) /\
  forall name, callable self name w2 = callable self name w1.
Proof.
  intros Hos Hload Hfirst Hsecond.
  destruct (init_proxy_ok_inv os fromstring self o w w1 Hload Hfirst)
    as (command & data & text & xml & Hsplit & Hrun & Hdecode & Hparse & ->).
  assert (Hload1 : nth_error
                     (heap (registered self (declared xml) (logged command w))) self
                   = Some (mkDBus (bus_name o) (object_path o)
                             (methods o ++ declared xml))).
  { unfold registered, logged. cbn [heap].
    now rewrite (nth_error_update _ _ _ o Hload). }
  destruct (init_proxy_ok_inv os fromstring self _ _ w2 Hload1 Hsecond)
    as (command' & data' & text' & xml' & Hsplit' & Hrun' & Hdecode' & Hparse' & ->).
  assert (command' = command) as ->.
  { unfold introspect_line in Hsplit'. cbn [bus_name object_path] in Hsplit'.
    unfold introspect_line in Hsplit. congruence. }
  assert (xml' = xml) as ->.
  { rewrite (Hos _ (execs w) command) in Hrun'. congruence. }
  assert (Hload2 : nth_error
                     (heap (registered self (declared xml)
                              (logged command
                                 (registered self (declared xml) (logged command w)))))
                     self
                   = Some (mkDBus (bus_name o) (object_path o)
                             ((methods o ++ declared xml) ++ declared xml))).
  { unfold registered at 1, logged at 1. cbn [heap].
    now rewrite (nth_error_update _ _ _ _ Hload1). }
  split.
  - exists (declared xml). now split.
  - intros name. unfold callable. rewrite Hload1, Hload2. cbn [methods].
    rewrite !mem_app. now destruct (mem name (methods o)), (mem name (declared xml)).
Qed.

Lemma init_proxy_twice_same_names_witness :
  callable 0 "Foo"
    (registered 0 (declared Fixture.foo_bar_bar)
       (logged (introspect_tokens (mkDBus "org.example" "/org/example" []))
          (registered 0 (declared Fixture.foo_bar_bar)
             (logged (introspect_tokens (mkDBus "org.example" "/org/example" []))
                (mkWorld [mkDBus "org.example" "/org/example" []] [])))))
  = callable 0 "Foo"
      (registered 0 (declared Fixture.foo_bar_bar)
         (logged (introspect_tokens (mkDBus "org.example" "/org/example" []))
            (mkWorld [mkDBus "org.example" "/org/example" []] []))).
Proof.
  apply (proj2 (init_proxy_twice_same_names Fixture.os_example Fixture.fromstring_one 0
                  (mkDBus "org.example" "/org/example" [])
                  (mkWorld [mkDBus "org.example" "/org/example" []] []) _ _
                  (fun h1 h2 command => eq_refl) eq_refl eq_refl eq_refl) "Foo").
Defined.
